(** * goairsensor: the VOC sensor session, decode and validation

    A shallow embedding of the two [main] programs of the repository:

    - [New]: cmd/airsensor_httpd/main.go, written against google/gousb
      ([OpenDeviceWithVIDPID], [DefaultInterface], [InEndpoint],
      [OutEndpoint]);
    - [Old]: the earlier program written against kylelemons/gousb
      ([ListDevices], [OpenEndpoint]).

    Both programs are straight-line Go code over an external USB library.
    The library is not part of the repository: every call into it is an
    oracle of a [Transport] record, and the Go run-time behaviour the
    programs rely on (deferred calls, [log.Fatal], slicing, [binary.Read])
    is written out below. *)

From Stdlib Require Import ZArith String Bool List Lia.
From Stdlib.Strings Require Import Byte.
Import ListNotations.
Local Open Scope Z_scope.

(** ** Bytes and fixed-width integers *)

(** The value of a byte, as the conversion [uint16(b)] widens it. *)
Definition uint8 (b : byte) : Z := Z.of_N (Byte.to_N b).

(** Go's conversion [int16(u)]: the low 16 bits, read as two's complement. *)
Definition int16 (u : Z) : Z := (u + 32768) mod 65536 - 32768.

(** Go's conversion [uint8(i)] of an [int] flag value. *)
Definition to_uint8 (i : Z) : Z := i mod 256.

(** [binary.LittleEndian.Uint16(b)]: [uint16(b[0]) | uint16(b[1])<<8]. *)
Definition LittleEndian_Uint16 (b0 b1 : byte) : Z :=
  Z.lor (uint8 b0) (Z.shiftl (uint8 b1) 8).

(** [binary.Read(bytes.NewBuffer(data), binary.LittleEndian, &ret)] for
    [ret : int16]: two bytes are taken from the front of the buffer; with
    fewer than two bytes available the call reports an error ([None]) and
    leaves [ret] untouched. *)
Definition binary_Read_int16 (data : list byte) : option Z :=
  match data with
  | b0 :: b1 :: _ => Some (int16 (LittleEndian_Uint16 b0 b1))
  | _ => None
  end.

(** Go's slice expression [buf[lo:hi]] on a slice whose capacity is its
    length; [None] is the run-time panic for bounds out of range. *)
Definition slice (buf : list byte) (lo hi : nat) : option (list byte) :=
  if (Nat.leb lo hi && Nat.leb hi (length buf))%bool
  then Some (firstn (hi - lo) (skipn lo buf))
  else None.

(** ** The classified reading *)

Inductive reading : Type :=
| Valid (value : Z)
| OutOfRange (value : Z).

(** ** Observable behaviour of a run *)

Definition error := string.

(** The log lines of both programs, with their formatted arguments. *)
Inductive log_msg : Type :=
| MsgScanning (device : string)
| MsgFatalOpenDevice (err : error)
| MsgFatalList (err : error)
| MsgFatalNoDevices
| MsgFatalDefaultInterface (err : error)
| MsgFatalInEndpoint (err : error)
| MsgFatalOutEndpoint (err : error)
| MsgConnecting
| MsgGotReadEndpoint
| MsgGotWriteEndpoint
| MsgFatalRead
| MsgReadCount (num : Z)
| MsgFatalWrite (err : option error)
| MsgWrote (num : Z) (buf : list byte)
| MsgResponse (num : Z) (buf : list byte)
| MsgDump (bytes : list byte)
| MsgVOC (voc : Z)
| MsgInvalidVOC (voc : Z)
| MsgInvalid (voc : Z).

(** A device handle of the library; [None] is Go's nil pointer. *)
Definition device_ptr := option nat.

Inductive event : Type :=
| EvNewContext
| EvCtxDebug (level : Z)
| EvCtxClose
| EvPrintDescriptor (vendor product : string)
| EvDumpDescriptor (vendor product : string)
| EvDumpEndpoint (addr : Z)
| EvOpenDeviceWithVIDPID (vid pid : Z)
| EvListDevices
| EvDevClose (dev : device_ptr)
| EvDefaultInterface (dev : device_ptr)
| EvInterfaceDone
| EvInEndpoint (num : Z)
| EvOutEndpoint (num : Z)
| EvOpenEndpoint (dev : device_ptr) (conf iface setup addr : Z)
| EvRead (buflen : nat) (num : Z)
| EvWrite (data : list byte) (num : Z)
| EvLog (m : log_msg).

(** ** Go run time: deferred calls, [os.Exit], panics *)

Inductive deferred : Type :=
| DeferCtxClose
| DeferDevClose (dev : device_ptr)
| DeferDone
| DeferCloseAll (devs : list nat).

Record proc : Type := mkProc {
  trace : list event;
  defers : list deferred;   (* most recently deferred call first *)
  reads : nat               (* number of reads issued on the IN endpoint *)
}.

Inductive status (A : Type) : Type :=
| Continue (a : A)
| OsExit (code : Z)         (* os.Exit: the process ends at once *)
| Panicking.                (* a run-time panic unwinds main *)
Arguments Continue {A} a.
Arguments OsExit {A} code.
Arguments Panicking {A}.

Definition go (A : Type) : Type := proc -> status A * proc.

Definition ret {A} (a : A) : go A := fun p => (Continue a, p).

Definition bind {A B} (m : go A) (k : A -> go B) : go B :=
  fun p =>
    match m p with
    | (Continue a, p') => k a p'
    | (OsExit c, p') => (OsExit c, p')
    | (Panicking, p') => (Panicking, p')
    end.

Declare Scope go_scope.
Delimit Scope go_scope with go.
Notation "x <- m ;; k" := (bind m (fun x => k))
  (at level 61, m at next level, right associativity) : go_scope.
Notation "' pat <- m ;; k" := (bind m (fun x => match x with pat => k end))
  (at level 61, pat pattern, m at next level, right associativity) : go_scope.
Notation "m ;; k" := (bind m (fun _ => k))
  (at level 61, right associativity) : go_scope.
Local Open Scope go_scope.

Definition emit (e : event) : go unit :=
  fun p => (Continue tt, mkProc (trace p ++ [e]) (defers p) (reads p)).

(** [defer f()]: the call is pushed and runs when [main] returns. *)
Definition defer (d : deferred) : go unit :=
  fun p => (Continue tt, mkProc (trace p) (d :: defers p) (reads p)).

Definition log_Printf (m : log_msg) : go unit := emit (EvLog m).

(** [log.Fatal] and [log.Fatalf]: print, then [os.Exit(1)]. Deferred calls
    are not run by [os.Exit]. *)
Definition log_Fatal {A} (m : log_msg) : go A :=
  fun p => (OsExit 1, mkProc (trace p ++ [EvLog m]) (defers p) (reads p)).

(** What a deferred call does when it finally runs. *)
Definition run_deferred (d : deferred) : list event :=
  match d with
  | DeferCtxClose => [EvCtxClose]
  | DeferDevClose dev => [EvDevClose dev]
  | DeferDone => [EvInterfaceDone]
  | DeferCloseAll devs => map (fun d => EvDevClose (Some d)) devs
  end.

Definition start : proc := mkProc [] [] 0%nat.

(** Running [main]: on a normal return the deferred calls run, last
    deferred first, and the exit code is 0; [os.Exit] ends the process with
    its code and nothing else runs; a panic runs the deferred calls and the
    process ends with code 2. *)
Definition run_main (body : go unit) : Z * list event :=
  match body start with
  | (Continue _, p) => (0, trace p ++ flat_map run_deferred (defers p))
  | (OsExit c, p) => (c, trace p)
  | (Panicking, p) => (2, trace p ++ flat_map run_deferred (defers p))
  end.

(** ** Endpoint I/O *)

(** The two endpoint oracles. [read_reply k] is what the device delivers to
    the [k]-th read issued on the IN endpoint (bytes and error);
    [write_reply data] is the count and error reported for a write. *)
Record EndpointIO : Type := mkIO {
  read_reply : nat -> list byte * option error;
  write_reply : list byte -> Z * option error
}.

(** What a read into [buf] takes from the delivered bytes: at most
    [len(buf)] of them. *)
Definition received (data buf : list byte) : list byte :=
  firstn (length buf) data.

(** The buffer after the read: the received bytes overwrite its front, the
    rest keeps its contents. *)
Definition copy_into (data buf : list byte) : list byte :=
  received data buf ++ skipn (length (received data buf)) buf.

(** [ep_read.Read(buf)]: the result is the number of bytes received, the
    buffer after the call and the error. The length of [buf] never
    changes. *)
Definition ep_Read (io : EndpointIO) (buf : list byte)
  : go (Z * list byte * option error) :=
  fun p =>
    let '(data, err) := read_reply io (reads p) in
    let num := Z.of_nat (length (received data buf)) in
    (Continue (num, copy_into data buf, err),
     mkProc (trace p ++ [EvRead (length buf) num]) (defers p) (S (reads p))).

(** [ep_write.Write(buf)]: [buf] is not modified. *)
Definition ep_Write (io : EndpointIO) (buf : list byte)
  : go (Z * option error) :=
  fun p =>
    let '(num, err) := write_reply io buf in
    (Continue (num, err),
     mkProc (trace p ++ [EvWrite buf num]) (defers p) (reads p)).

(** [buf[lo:hi]] inside [main]. *)
Definition go_slice (buf : list byte) (lo hi : nat) : go (list byte) :=
  fun p =>
    match slice buf lo hi with
    | Some s => (Continue s, p)
    | None => (Panicking, p)
    end.

(** ** Configuration: the command-line flags *)

Record Flags : Type := mkFlags {
  device : string;
  config : Z;
  iface : Z;
  setup : Z;
  endpoint : Z;
  debug : Z
}.

Definition default_flags : Flags :=
  mkFlags "03eb:2013"%string 1 0 0 1 3.

Definition with_endpoint (fl : Flags) (e : Z) : Flags :=
  mkFlags (device fl) (config fl) (iface fl) (setup fl) e (debug fl).

(** The request command:
    ["\x40\x68\x2a\x54\x52\x0a\x40\x40\x40\x40\x40\x40\x40\x40\x40\x40"]. *)
Definition command_frame : list byte :=
  [x40; x68; x2a; x54; x52; x0a; x40; x40;
   x40; x40; x40; x40; x40; x40; x40; x40].

(** [if err != nil { log.Fatalf(..., err) }] *)
Definition fatal_if_err (err : option error) (msg : error -> log_msg)
  : go unit :=
  match err with
  | Some e => log_Fatal (msg e)
  | None => ret tt
  end.

(** [l[i]]: a run-time panic when [i] is out of range. *)
Definition index {A} (l : list A) (i : nat) : go A :=
  fun p =>
    match nth_error l i with
    | Some x => (Continue x, p)
    | None => (Panicking, p)
    end.

(** ** The program of cmd/airsensor_httpd/main.go *)

Module New.

(** The calls into google/gousb. [open_device vid pid] is the pair returned
    by [ctx.OpenDeviceWithVIDPID]; [default_interface dev] is the error of
    [dev.DefaultInterface()]; [in_endpoint n] and [out_endpoint n] are the
    errors of [intf.InEndpoint(n)] and [intf.OutEndpoint(n)]. *)
Record Transport : Type := mkTransport {
  open_device : Z -> Z -> device_ptr * option error;
  default_interface : device_ptr -> option error;
  in_endpoint : Z -> option error;
  out_endpoint : Z -> option error;
  io : EndpointIO
}.

(** [func read_le_int16(data []byte) (ret int16)]: the error of
    [binary.Read] is dropped and the named result starts at zero. *)
Definition read_le_int16 (data : list byte) : Z :=
  match binary_Read_int16 data with
  | Some ret => ret
  | None => 0
  end.

(** The range test of [main]: [(voc >= 450) && (voc <= 2000)]. *)
Definition classify (voc : Z) : reading :=
  if (voc >=? 450) && (voc <=? 2000) then Valid voc else OutOfRange voc.

(** The line logged in each branch of the range test. *)
Definition report (r : reading) : log_msg :=
  match r with
  | Valid voc => MsgVOC voc
  | OutOfRange voc => MsgInvalidVOC voc
  end.

Definition main (fl : Flags) (t : Transport) : go unit :=
  emit EvNewContext ;;
  defer DeferCtxClose ;;
  emit (EvCtxDebug (debug fl)) ;;
  log_Printf (MsgScanning (device fl)) ;;
  (* dev, err := ctx.OpenDeviceWithVIDPID(0x03eb, 0x2013) *)
  emit (EvOpenDeviceWithVIDPID 0x03eb 0x2013) ;;
  let '(dev, err) := open_device t 0x03eb 0x2013 in
  fatal_if_err err MsgFatalOpenDevice ;;
  defer (DeferDevClose dev) ;;
  (* intf, done, err := dev.DefaultInterface() *)
  emit (EvDefaultInterface dev) ;;
  fatal_if_err (default_interface t dev) MsgFatalDefaultInterface ;;
  defer DeferDone ;;
  (* ep_read, err := intf.InEndpoint(1) *)
  emit (EvInEndpoint 1) ;;
  fatal_if_err (in_endpoint t 1) MsgFatalInEndpoint ;;
  (* ep_write, err := intf.OutEndpoint(2) *)
  emit (EvOutEndpoint 2) ;;
  fatal_if_err (out_endpoint t 2) MsgFatalOutEndpoint ;;
  (* var buf []byte *)
  let buf : list byte := [] in
  '(num, buf, err) <- ep_Read (io t) buf ;;
  match err with Some _ => log_Fatal MsgFatalRead | None => ret tt end ;;
  log_Printf (MsgReadCount num) ;;
  (* request data step 1: send request command *)
  let buf := command_frame in
  '(num, err) <- ep_Write (io t) buf ;;
  (if negb (num =? Z.of_nat (length buf))
   then log_Fatal (MsgFatalWrite err) else ret tt) ;;
  log_Printf (MsgWrote num buf) ;;
  (* request data step 2: read response *)
  '(num, buf, err) <- ep_Read (io t) buf ;;
  match err with Some _ => log_Fatal MsgFatalRead | None => ret tt end ;;
  log_Printf (MsgResponse num buf) ;;
  s <- go_slice buf 2 4 ;;
  log_Printf (MsgDump s) ;;
  s <- go_slice buf 2 4 ;;
  let voc := read_le_int16 s in
  log_Printf (report (classify voc)) ;;
  (* request data step 3: flush *)
  '(num, buf, err) <- ep_Read (io t) buf ;;
  match err with Some _ => log_Fatal MsgFatalRead | None => ret tt end ;;
  log_Printf (MsgReadCount num).

Definition run (fl : Flags) (t : Transport) : Z * list event :=
  run_main (main fl t).

End New.

(** ** The earlier program, over kylelemons/gousb *)

Module Old.

(** A device the library enumerates: its handle once opened, and its
    vendor and product ids as [%s] prints them. *)
Record Device : Type := mkDevice {
  handle : nat;
  Vendor : string;
  Product : string
}.

(** The calls into kylelemons/gousb. [attached] are the devices on the bus
    in enumeration order and [list_err] the error [ListDevices] returns;
    [open_endpoint h conf iface setup addr] is the error of
    [dev.OpenEndpoint(conf, iface, setup, addr)] on the device [h]. *)
Record Transport : Type := mkTransport {
  attached : list Device;
  list_err : option error;
  open_endpoint : nat -> Z -> Z -> Z -> Z -> option error;
  io : EndpointIO
}.

Definition read_le_int16 (data : list byte) : Z :=
  match binary_Read_int16 data with
  | Some ret => ret
  | None => 0
  end.

Definition classify (voc : Z) : reading :=
  if (voc >=? 450) && (voc <=? 2000) then Valid voc else OutOfRange voc.

Definition report (r : reading) : log_msg :=
  match r with
  | Valid voc => MsgVOC voc
  | OutOfRange voc => MsgInvalid voc
  end.

(** The callback given to [ctx.ListDevices]: a device is kept when
    ["vendor:product"] is the [device] flag; the descriptor of a kept device
    is printed (one event stands for the nested printing loops). *)
Definition each (fl : Flags) (desc : Device) : go bool :=
  if negb (String.eqb (Vendor desc ++ ":" ++ Product desc) (device fl))
  then ret false
  else emit (EvPrintDescriptor (Vendor desc) (Product desc)) ;; ret true.

(** [ctx.ListDevices(each)]: the callback runs on every enumerated device
    and the ones it accepts are opened and returned, in order. *)
Fixpoint walk (f : Device -> go bool) (ds : list Device) : go (list Device) :=
  match ds with
  | [] => ret []
  | d :: ds' =>
      keep <- f d ;;
      rest <- walk f ds' ;;
      ret (if keep then d :: rest else rest)
  end.

Definition ListDevices (t : Transport) (f : Device -> go bool)
  : go (list Device * option error) :=
  emit EvListDevices ;;
  devs <- walk f (attached t) ;;
  ret (devs, list_err t).

Section WithDirectionBits.

(** [usb.ENDPOINT_DIR_IN] and [usb.ENDPOINT_DIR_OUT], constants of the
    library. *)
Variables ENDPOINT_DIR_IN ENDPOINT_DIR_OUT : Z.

Definition main (fl : Flags) (t : Transport) : go unit :=
  emit EvNewContext ;;
  defer DeferCtxClose ;;
  emit (EvCtxDebug (debug fl)) ;;
  log_Printf (MsgScanning (device fl)) ;;
  '(devs, err) <- ListDevices t (each fl) ;;
  (* All Devices returned from ListDevices must be closed. *)
  defer (DeferCloseAll (map handle devs)) ;;
  fatal_if_err err MsgFatalList ;;
  (if Nat.eqb (length devs) 0 then log_Fatal MsgFatalNoDevices else ret tt) ;;
  dev <- index devs 0 ;;
  log_Printf MsgConnecting ;;
  emit (EvDumpDescriptor (Vendor dev) (Product dev)) ;;
  let addr_in := Z.lor (to_uint8 1) (to_uint8 ENDPOINT_DIR_IN) in
  emit (EvOpenEndpoint (Some (handle dev)) (to_uint8 (config fl))
          (to_uint8 (iface fl)) (to_uint8 (setup fl)) addr_in) ;;
  fatal_if_err
    (open_endpoint t (handle dev) (to_uint8 (config fl))
       (to_uint8 (iface fl)) (to_uint8 (setup fl)) addr_in)
    MsgFatalInEndpoint ;;
  log_Printf MsgGotReadEndpoint ;;
  emit (EvDumpEndpoint addr_in) ;;
  let addr_out := Z.lor (to_uint8 2) (to_uint8 ENDPOINT_DIR_OUT) in
  emit (EvOpenEndpoint (Some (handle dev)) (to_uint8 (config fl))
          (to_uint8 (iface fl)) (to_uint8 (setup fl)) addr_out) ;;
  fatal_if_err
    (open_endpoint t (handle dev) (to_uint8 (config fl))
       (to_uint8 (iface fl)) (to_uint8 (setup fl)) addr_out)
    MsgFatalOutEndpoint ;;
  log_Printf MsgGotWriteEndpoint ;;
  emit (EvDumpEndpoint addr_out) ;;
  (* var buf []byte *)
  let buf : list byte := [] in
  '(num, buf, err) <- ep_Read (io t) buf ;;
  match err with Some _ => log_Fatal MsgFatalRead | None => ret tt end ;;
  log_Printf (MsgReadCount num) ;;
  (* request data step 1: send request command *)
  let buf := command_frame in
  '(num, err) <- ep_Write (io t) buf ;;
  fatal_if_err err (fun e => MsgFatalWrite (Some e)) ;;
  log_Printf (MsgWrote num buf) ;;
  (* request data step 2: read response *)
  '(num, buf, err) <- ep_Read (io t) buf ;;
  match err with Some _ => log_Fatal MsgFatalRead | None => ret tt end ;;
  log_Printf (MsgResponse num buf) ;;
  s <- go_slice buf 2 4 ;;
  log_Printf (MsgDump s) ;;
  s <- go_slice buf 2 4 ;;
  let voc := read_le_int16 s in
  log_Printf (report (classify voc)) ;;
  (* request data step 3: flush *)
  '(num, buf, err) <- ep_Read (io t) buf ;;
  match err with Some _ => log_Fatal MsgFatalRead | None => ret tt end ;;
  log_Printf (MsgReadCount num).

Definition run (fl : Flags) (t : Transport) : Z * list event :=
  run_main (main fl t).

End WithDirectionBits.

End Old.

(** ** Reference encoder *)

(** The byte with the given value (taken modulo 256). *)
Definition byte_of_Z (z : Z) : byte :=
  match Byte.of_N (Z.to_N (z mod 256)) with
  | Some b => b
  | None => x00
  end.

(** Reference little-endian encoder of a signed 16-bit integer, as the
    specification words it: low byte first, then the high byte of the
    two's-complement representation. *)
Definition encode_le_int16 (v : Z) : list byte :=
  [byte_of_Z (v mod 256); byte_of_Z ((v mod 65536) / 256)].

(** ** Observations on a trace *)

(** Release calls: [ctx.Close()], [dev.Close()] and the [done()] of a
    claimed interface. *)
Definition is_release (e : event) : bool :=
  match e with
  | EvCtxClose | EvDevClose _ | EvInterfaceDone => true
  | _ => false
  end.

Fixpoint releases (tr : list event) : list event :=
  match tr with
  | [] => []
  | e :: tr' => if is_release e then e :: releases tr' else releases tr'
  end.

Definition is_endpoint_open (e : event) : bool :=
  match e with
  | EvInEndpoint _ | EvOutEndpoint _ | EvOpenEndpoint _ _ _ _ _ => true
  | _ => false
  end.

Fixpoint endpoint_opens (tr : list event) : list event :=
  match tr with
  | [] => []
  | e :: tr' =>
      if is_endpoint_open e then e :: endpoint_opens tr'
      else endpoint_opens tr'
  end.

(** Endpoint opens, reads and writes. *)
Definition is_endpoint_op (e : event) : bool :=
  match e with
  | EvRead _ _ | EvWrite _ _ => true
  | _ => is_endpoint_open e
  end.

Fixpoint endpoint_ops (tr : list event) : list event :=
  match tr with
  | [] => []
  | e :: tr' =>
      if is_endpoint_op e then e :: endpoint_ops tr' else endpoint_ops tr'
  end.

(** Buffer length and byte count of the first read of a run. *)
Fixpoint first_read (tr : list event) : option (nat * Z) :=
  match tr with
  | [] => None
  | EvRead buflen num :: _ => Some (buflen, num)
  | _ :: tr' => first_read tr'
  end.

(** Data and reported count of every write of a run. *)
Fixpoint writes (tr : list event) : list (list byte * Z) :=
  match tr with
  | [] => []
  | EvWrite data num :: tr' => (data, num) :: writes tr'
  | _ :: tr' => writes tr'
  end.

(** The classified readings a run reports on its log. *)
Fixpoint reported (tr : list event) : list reading :=
  match tr with
  | [] => []
  | EvLog (MsgVOC v) :: tr' => Valid v :: reported tr'
  | EvLog (MsgInvalidVOC v) :: tr' => OutOfRange v :: reported tr'
  | EvLog (MsgInvalid v) :: tr' => OutOfRange v :: reported tr'
  | _ :: tr' => reported tr'
  end.

Definition is_fatal (m : log_msg) : bool :=
  match m with
  | MsgFatalOpenDevice _ | MsgFatalList _ | MsgFatalNoDevices
  | MsgFatalDefaultInterface _ | MsgFatalInEndpoint _
  | MsgFatalOutEndpoint _ | MsgFatalRead | MsgFatalWrite _ => true
  | _ => false
  end.

(** The fatal log lines of a run. *)
Fixpoint fatals (tr : list event) : list log_msg :=
  match tr with
  | [] => []
  | EvLog m :: tr' => if is_fatal m then m :: fatals tr' else fatals tr'
  | _ :: tr' => fatals tr'
  end.

(** The descriptor lines the [ListDevices] callback prints. *)
Fixpoint printed (devs : list Old.Device) : list event :=
  match devs with
  | [] => []
  | d :: devs' =>
      EvPrintDescriptor (Old.Vendor d) (Old.Product d) :: printed devs'
  end.

(** The [Close] calls of the deferred loop over [devs]. *)
Definition closed (devs : list Old.Device) : list event :=
  map (fun h => EvDevClose (Some h)) (map Old.handle devs).

(** ** Paths through main.go *)

Module NewPath.
Import New.

(** The device is opened, its interface claimed and both endpoints opened
    without an error. *)
Definition opens (t : Transport) : bool :=
  match snd (open_device t 0x03eb 0x2013),
        default_interface t (fst (open_device t 0x03eb 0x2013)),
        in_endpoint t 1, out_endpoint t 2 with
  | None, None, None, None => true
  | _, _, _, _ => false
  end.

(** The write is reached: the session opens and the stale flush reports no
    error. *)
Definition reaches_write (t : Transport) : bool :=
  opens t &&
  match snd (read_reply (io t) 0) with None => true | Some _ => false end.

(** The decode is reached: the write reports 16 bytes and the response
    read no error. *)
Definition reaches_decode (t : Transport) : bool :=
  reaches_write t &&
  (fst (write_reply (io t) command_frame) =? 16) &&
  match snd (read_reply (io t) 1) with None => true | Some _ => false end.

(** The whole exchange completes: the trailing flush reports no error. *)
Definition exchange_completes (t : Transport) : bool :=
  reaches_decode t &&
  match snd (read_reply (io t) 2) with None => true | Some _ => false end.

(** The buffer after the response read, and the value decoded from it. *)
Definition response_buffer (t : Transport) : list byte :=
  copy_into (fst (read_reply (io t) 1)) command_frame.

Definition response_voc (t : Transport) : Z :=
  match slice (response_buffer t) 2 4 with
  | Some s => read_le_int16 s
  | None => 0
  end.

End NewPath.

(** ** Paths through the earlier program *)

Module OldPath.
Import Old.

Definition matches (fl : Flags) (desc : Device) : bool :=
  String.eqb (Vendor desc ++ ":" ++ Product desc) (device fl).

(** The devices [ListDevices] returns. *)
Definition found (fl : Flags) (t : Transport) : list Device :=
  filter (matches fl) (attached t).

Section WithDirectionBits.
Variables ENDPOINT_DIR_IN ENDPOINT_DIR_OUT : Z.

Definition addr_in : Z := Z.lor (to_uint8 1) (to_uint8 ENDPOINT_DIR_IN).
Definition addr_out : Z := Z.lor (to_uint8 2) (to_uint8 ENDPOINT_DIR_OUT).

Definition opens (fl : Flags) (t : Transport) : bool :=
  match list_err t, found fl t with
  | None, dev :: _ =>
      match open_endpoint t (handle dev) (to_uint8 (config fl))
              (to_uint8 (iface fl)) (to_uint8 (setup fl)) addr_in,
            open_endpoint t (handle dev) (to_uint8 (config fl))
              (to_uint8 (iface fl)) (to_uint8 (setup fl)) addr_out with
      | None, None => true
      | _, _ => false
      end
  | _, _ => false
  end.

Definition reaches_write (fl : Flags) (t : Transport) : bool :=
  opens fl t &&
  match snd (read_reply (io t) 0) with None => true | Some _ => false end.

(** Here the write step tests the error, not the count. *)
Definition reaches_decode (fl : Flags) (t : Transport) : bool :=
  reaches_write fl t &&
  match snd (write_reply (io t) command_frame) with
  | None => true | Some _ => false end &&
  match snd (read_reply (io t) 1) with None => true | Some _ => false end.

Definition exchange_completes (fl : Flags) (t : Transport) : bool :=
  reaches_decode fl t &&
  match snd (read_reply (io t) 2) with None => true | Some _ => false end.

End WithDirectionBits.

Definition response_buffer (t : Transport) : list byte :=
  copy_into (fst (read_reply (io t) 1)) command_frame.

Definition response_voc (t : Transport) : Z :=
  match slice (response_buffer t) 2 4 with
  | Some s => read_le_int16 s
  | None => 0
  end.

(** The two endpoint opens of a run, on the first device found. *)
Definition endpoint_pair (i o : Z) (fl : Flags) (t : Transport)
  : list event :=
  match found fl t with
  | [] => []
  | dev :: _ =>
      [EvOpenEndpoint (Some (handle dev)) (to_uint8 (config fl))
         (to_uint8 (iface fl)) (to_uint8 (setup fl)) (addr_in i);
       EvOpenEndpoint (Some (handle dev)) (to_uint8 (config fl))
         (to_uint8 (iface fl)) (to_uint8 (setup fl)) (addr_out o)]
  end.

End OldPath.

(** ** Concrete transports *)

(** The direction bits of a USB endpoint address. *)
Definition DIR_IN : Z := 0x80.
Definition DIR_OUT : Z := 0x00.

(** A device that answers the request with the given bytes; flushes find
    nothing pending and writes are complete. *)
Definition answering (response : list byte) : EndpointIO :=
  mkIO (fun k => match k with
                 | 1%nat => (response, None)
                 | _ => ([], None)
                 end)
       (fun data => (Z.of_nat (length data), None)).

(** Like [answering], but every write reports [num] bytes and no error. *)
Definition short_writing (num : Z) (response : list byte) : EndpointIO :=
  mkIO (read_reply (answering response)) (fun _ => (num, None)).

(** Scenario B of the specification: bytes [0xFF, 0x7F] at offsets 2-3. *)
Definition response_B : list byte := [x00; x00; xff; x7f].

(** A response of three bytes only. *)
Definition response_3 : list byte := [x00; x00; x00].

(** One sensor, everything succeeds. *)
Definition sensor (response : list byte) : New.Transport :=
  New.mkTransport (fun _ _ => (Some 7%nat, None)) (fun _ => None)
    (fun _ => None) (fun _ => None) (answering response).

(** The device opens but its interface cannot be claimed. *)
Definition interface_busy : New.Transport :=
  New.mkTransport (fun _ _ => (Some 7%nat, None))
    (fun _ => Some "busy"%string)
    (fun _ => None) (fun _ => None) (answering []).

(** The write reports 10 of 16 bytes and no error. *)
Definition sensor_short_write : New.Transport :=
  New.mkTransport (fun _ _ => (Some 7%nat, None)) (fun _ => None)
    (fun _ => None) (fun _ => None) (short_writing 10 []).

(** No device matches: [OpenDeviceWithVIDPID] returns a nil device and a
    nil error; claiming the interface of the nil device fails. *)
Definition nothing_attached : New.Transport :=
  New.mkTransport (fun _ _ => (None, None))
    (fun dev => match dev with
                | None => Some "no device"%string
                | Some _ => None
                end)
    (fun _ => None) (fun _ => None) (answering []).

(** A bus with a hub and two sensors, for the earlier program. *)
Definition bus : list Old.Device :=
  [Old.mkDevice 3 "1d6b" "0002";
   Old.mkDevice 4 "03eb" "2013";
   Old.mkDevice 5 "03eb" "2013"].

Definition old_sensor (response : list byte) : Old.Transport :=
  Old.mkTransport bus None (fun _ _ _ _ _ => None) (answering response).

Definition old_short_write : Old.Transport :=
  Old.mkTransport bus None (fun _ _ _ _ _ => None) (short_writing 10 []).

Definition old_endpoint_busy : Old.Transport :=
  Old.mkTransport bus None (fun _ _ _ _ _ => Some "busy"%string)
    (answering []).

Definition old_nothing_attached : Old.Transport :=
  Old.mkTransport [Old.mkDevice 3 "1d6b" "0002"] None
    (fun _ _ _ _ _ => None) (answering []).

(** ** Two statements of the specification that the programs do not meet *)

(** The endpoints opened are the ones the [endpoint] option names. *)
Definition endpoints_follow_configuration : Prop :=
  forall (fl : Flags) (t : New.Transport) (n : Z),
    In (EvInEndpoint n) (snd (New.run fl t))
    \/ In (EvOutEndpoint n) (snd (New.run fl t)) ->
    n = endpoint fl.

(** A response of fewer than four bytes always decodes to 21546. *)
Definition short_response_decodes_frame : Prop :=
  forall (fl : Flags) (t : New.Transport),
    NewPath.reaches_decode t = true ->
    (length (fst (read_reply (New.io t) 1)) < 4)%nat ->
    reported (snd (New.run fl t)) = [OutOfRange 21546].

(** ** Order of the endpoint I/O *)

(** A read with the length of the buffer handed to it, or a write with its
    data. *)
Inductive io_call : Type :=
| IORead (buflen : nat)
| IOWrite (data : list byte).

(** The reads and writes of a run, in the order they are issued. *)
Fixpoint io_calls (tr : list event) : list io_call :=
  match tr with
  | [] => []
  | EvRead buflen _ :: tr' => IORead buflen :: io_calls tr'
  | EvWrite data _ :: tr' => IOWrite data :: io_calls tr'
  | _ :: tr' => io_calls tr'
  end.

(** The whole exchange: stale flush on the nil buffer, the command frame,
    the response read and the trailing flush on the 16-byte buffer. *)
Definition exchange : list io_call :=
  [IORead 0; IOWrite command_frame; IORead 16; IORead 16].

(** How many of the four I/O calls main.go issues. *)
Definition new_io_steps (t : New.Transport) : nat :=
  if negb (NewPath.opens t) then 0
  else if negb (NewPath.reaches_write t) then 1
  else if negb (fst (write_reply (New.io t) command_frame) =? 16) then 2
  else if negb (NewPath.reaches_decode t) then 3
  else 4.

(** How many of them the earlier program issues. *)
Definition old_io_steps (i o : Z) (fl : Flags) (t : Old.Transport) : nat :=
  if negb (OldPath.opens i o fl t) then 0
  else if negb (OldPath.reaches_write i o fl t) then 1
  else match snd (write_reply (Old.io t) command_frame) with
       | Some _ => 2
       | None => if negb (OldPath.reaches_decode i o fl t) then 3 else 4
       end.

(** The vendor and product ids of every [OpenDeviceWithVIDPID] call. *)
Fixpoint device_opens (tr : list event) : list (Z * Z) :=
  match tr with
  | [] => []
  | EvOpenDeviceWithVIDPID vid pid :: tr' => (vid, pid) :: device_opens tr'
  | _ :: tr' => device_opens tr'
  end.

(** The last event of a run. *)
Fixpoint last_event (tr : list event) : option event :=
  match tr with
  | [] => None
  | e :: tr' =>
      match last_event tr' with
      | None => Some e
      | Some e' => Some e'
      end
  end.

(** ** More concrete transports *)

(** Scenario A of the specification: bytes [0xC2, 0x06] at offsets 2-3,
    here inside a response longer than the buffer. *)
Definition response_A : list byte :=
  [x00; x00; xc2; x06; x00; x00; x00; x00; x00; x00;
   x00; x00; x00; x00; x00; x00; xff; xff].

(** The write is complete but the library reports an error with it. *)
Definition write_stalls : EndpointIO :=
  mkIO (read_reply (answering response_A))
       (fun data => (Z.of_nat (length data), Some "stall"%string)).

Definition sensor_write_stalls : New.Transport :=
  New.mkTransport (fun _ _ => (Some 7%nat, None)) (fun _ => None)
    (fun _ => None) (fun _ => None) write_stalls.

Definition old_write_stalls : Old.Transport :=
  Old.mkTransport bus None (fun _ _ _ _ _ => None) write_stalls.

(** The response arrives, the trailing flush reports an error. *)
Definition flush_fails : EndpointIO :=
  mkIO (fun k => match k with
                 | 1%nat => (response_A, None)
                 | 2%nat => ([], Some "timeout"%string)
                 | _ => ([], None)
                 end)
       (fun data => (Z.of_nat (length data), None)).

Definition sensor_flush_fails : New.Transport :=
  New.mkTransport (fun _ _ => (Some 7%nat, None)) (fun _ => None)
    (fun _ => None) (fun _ => None) flush_fails.

Definition old_flush_fails : Old.Transport :=
  Old.mkTransport bus None (fun _ _ _ _ _ => None) flush_fails.

(** [ListDevices] returns both sensors and an error. *)
Definition old_list_error : Old.Transport :=
  Old.mkTransport bus (Some "access denied"%string)
    (fun _ _ _ _ _ => None) (answering []).

(** Flags that differ from the defaults in every option main.go does not
    read. *)
Definition other_flags : Flags :=
  mkFlags "03eb:2013"%string 4 2 3 9 3.

(** The [config], [interface] and [setup] options shifted by multiples of
    256. *)
Definition shifted (fl : Flags) (a b c : Z) : Flags :=
  mkFlags (device fl) (config fl + 256 * a) (iface fl + 256 * b)
    (setup fl + 256 * c) (endpoint fl) (debug fl).

(** * Properties *)

(** ** Bytes and the decoder *)

Lemma uint8_range (b : byte) : 0 <= uint8 b < 256.
Proof.
  unfold uint8. pose proof (Byte.to_N_bounded b) as H. lia.
Qed.

Lemma byte_of_Z_uint8 (b : byte) : byte_of_Z (uint8 b) = b.
Proof.
  unfold byte_of_Z, uint8.
  rewrite Z.mod_small by (pose proof (Byte.to_N_bounded b); lia).
  rewrite N2Z.id, Byte.of_to_N. reflexivity.
Qed.

(** A byte and a value shifted left by eight bits share no bit, so their
    bitwise or is their sum. *)
Lemma lor_shiftl_8 (a b : Z) :
  0 <= a < 256 -> 0 <= b -> Z.lor a (Z.shiftl b 8) = a + 256 * b.
Proof.
  intros Ha Hb.
  assert (Hdisj : Z.land a (Z.shiftl b 8) = 0).
  { apply Z.bits_inj'. intros n Hn.
    rewrite Z.land_spec, Z.bits_0.
    destruct (Z.ltb_spec n 8) as [Hlt | Hge].
    - rewrite (Z.shiftl_spec_low b 8 n) by lia. apply andb_false_r.
    - assert (Z.testbit a n = false) as ->; [|reflexivity].
      destruct (Z.eq_dec a 0) as [-> | Hnz]; [apply Z.bits_0|].
      apply Z.bits_above_log2; [lia|].
      assert (Z.log2 a < 8); [|lia].
      apply Z.log2_lt_pow2; simpl; lia. }
  rewrite <- Z.lxor_lor by exact Hdisj.
  rewrite <- Z.add_nocarry_lxor by exact Hdisj.
  rewrite Z.shiftl_mul_pow2 by lia. change (2 ^ 8) with 256. lia.
Qed.

Lemma LittleEndian_Uint16_sum (b0 b1 : byte) :
  LittleEndian_Uint16 b0 b1 = uint8 b0 + 256 * uint8 b1.
Proof.
  unfold LittleEndian_Uint16.
  pose proof (uint8_range b0). pose proof (uint8_range b1).
  apply lor_shiftl_8; lia.
Qed.

Lemma int16_range (u : Z) : -32768 <= int16 u < 32768.
Proof.
  unfold int16. pose proof (Z.mod_pos_bound (u + 32768) 65536). lia.
Qed.

Lemma int16_mod (u : Z) : int16 u mod 65536 = u mod 65536.
Proof.
  unfold int16. Z.div_mod_to_equations. lia.
Qed.

(** C2: for every pair of bytes [lo], [hi], [read_le_int16] on [[lo; hi]]
    is the signed 16-bit two's-complement integer with bit pattern
    [lo | hi << 8]: it lies in the int16 range, it is congruent to
    [lo + 256 * hi] modulo 65536 (so it is that number, minus 65536 when
    the top bit of [hi] is set), and the reference little-endian encoder
    maps it back to [[lo; hi]]. The decoder of the earlier program returns
    the same value. *)
Theorem read_le_int16_pair (lo hi : byte) :
  New.read_le_int16 [lo; hi]
    = int16 (Z.lor (uint8 lo) (Z.shiftl (uint8 hi) 8))
  /\ -32768 <= New.read_le_int16 [lo; hi] < 32768
  /\ New.read_le_int16 [lo; hi] mod 65536 = uint8 lo + 256 * uint8 hi
  /\ New.read_le_int16 [lo; hi]
       = (if uint8 hi <? 128 then uint8 lo + 256 * uint8 hi
          else uint8 lo + 256 * uint8 hi - 65536)
  /\ encode_le_int16 (New.read_le_int16 [lo; hi]) = [lo; hi]
  /\ Old.read_le_int16 [lo; hi] = New.read_le_int16 [lo; hi].
Proof.
  pose proof (uint8_range lo) as Hlo. pose proof (uint8_range hi) as Hhi.
  assert (Hv : New.read_le_int16 [lo; hi]
               = int16 (uint8 lo + 256 * uint8 hi)).
  { unfold New.read_le_int16, binary_Read_int16.
    rewrite LittleEndian_Uint16_sum. reflexivity. }
  assert (Hm : New.read_le_int16 [lo; hi] mod 65536
               = uint8 lo + 256 * uint8 hi).
  { rewrite Hv, int16_mod. apply Z.mod_small. lia. }
  split; [reflexivity|].
  split; [rewrite Hv; apply int16_range|].
  split; [exact Hm|].
  split; [|split].
  - rewrite Hv. unfold int16.
    destruct (Z.ltb_spec (uint8 hi) 128); Z.div_mod_to_equations; lia.
  - unfold encode_le_int16. rewrite Hm.
    replace (New.read_le_int16 [lo; hi] mod 256) with (uint8 lo).
    + replace ((uint8 lo + 256 * uint8 hi) / 256) with (uint8 hi)
        by (Z.div_mod_to_equations; lia).
      rewrite !byte_of_Z_uint8. reflexivity.
    + revert Hm. generalize (New.read_le_int16 [lo; hi]). intros v Hm.
      Z.div_mod_to_equations. lia.
  - reflexivity.
Qed.

(** The decoder inverts the reference encoder on the whole int16 range. *)
Lemma read_le_int16_encode (v : Z) :
  -32768 <= v < 32768 -> New.read_le_int16 (encode_le_int16 v) = v.
Proof.
  intros Hv. unfold encode_le_int16, New.read_le_int16, binary_Read_int16.
  rewrite LittleEndian_Uint16_sum.
  assert (Hb : forall z, 0 <= z < 256 -> uint8 (byte_of_Z z) = z).
  { intros z Hz. unfold byte_of_Z, uint8.
    rewrite Z.mod_small by lia.
    destruct (Byte.of_N (Z.to_N z)) as [b|] eqn:E.
    - apply Byte.to_of_N in E. rewrite E. lia.
    - apply Byte.of_N_None_iff in E. lia. }
  rewrite !Hb by (Z.div_mod_to_equations; lia).
  unfold int16. Z.div_mod_to_equations. lia.
Qed.

(** With fewer than two bytes [binary.Read] fails and the result is 0. *)
Lemma read_le_int16_short (data : list byte) :
  (length data < 2)%nat -> New.read_le_int16 data = 0.
Proof.
  destruct data as [|b0 [|b1 rest]]; simpl; intros H; try reflexivity; lia.
Qed.

(** ** Classification *)

Lemma new_classify_cases (v : Z) :
  (450 <= v <= 2000 /\ New.classify v = Valid v)
  \/ (~ 450 <= v <= 2000 /\ New.classify v = OutOfRange v).
Proof.
  unfold New.classify.
  destruct (Z.geb_spec v 450), (Z.leb_spec v 2000); simpl;
    first [left; split; [lia | reflexivity]
          | right; split; [lia | reflexivity]].
Qed.

Lemma old_classify_cases (v : Z) :
  (450 <= v <= 2000 /\ Old.classify v = Valid v)
  \/ (~ 450 <= v <= 2000 /\ Old.classify v = OutOfRange v).
Proof. exact (new_classify_cases v). Qed.

(** C3: the classification of [v] is [Valid] exactly when
    [450 <= v <= 2000], both ends included, and [OutOfRange] otherwise; the
    outcome carries [v] itself. 450 and 2000 are [Valid], 449 and 2001 are
    [OutOfRange]. The same holds in both programs. *)
Theorem classify_valid_iff (v : Z) :
  (New.classify v = Valid v <-> 450 <= v <= 2000)
  /\ (New.classify v = OutOfRange v <-> ~ 450 <= v <= 2000)
  /\ (Old.classify v = Valid v <-> 450 <= v <= 2000)
  /\ (Old.classify v = OutOfRange v <-> ~ 450 <= v <= 2000)
  /\ New.classify 450 = Valid 450 /\ New.classify 2000 = Valid 2000
  /\ New.classify 449 = OutOfRange 449
  /\ New.classify 2001 = OutOfRange 2001.
Proof.
  split; [|split; [|split; [|split; [|repeat split]]]].
  - destruct (new_classify_cases v) as [[Hr ->] | [Hr ->]];
      split; intros H; try discriminate; tauto.
  - destruct (new_classify_cases v) as [[Hr ->] | [Hr ->]];
      split; intros H; try discriminate; tauto.
  - destruct (old_classify_cases v) as [[Hr ->] | [Hr ->]];
      split; intros H; try discriminate; tauto.
  - destruct (old_classify_cases v) as [[Hr ->] | [Hr ->]];
      split; intros H; try discriminate; tauto.
Qed.

(** ** The two programs decode and validate alike *)

(** C10: on every byte sequence the decoder of the earlier program and the
    decoder of main.go return the same int16, and on every value both
    programs take the same branch of the range test [450 <= v <= 2000]. *)
Theorem decode_validate_equivalent :
  (forall data : list byte, Old.read_le_int16 data = New.read_le_int16 data)
  /\ (forall v : Z, Old.classify v = New.classify v)
  /\ (forall v : Z,
        Old.classify v = (if (450 <=? v) && (v <=? 2000)
                          then Valid v else OutOfRange v)).
Proof.
  split; [|split].
  - intros data. unfold Old.read_le_int16, New.read_le_int16.
    destruct (binary_Read_int16 data); reflexivity.
  - intros v. unfold Old.classify, New.classify. reflexivity.
  - intros v. unfold Old.classify. rewrite Z.geb_leb. reflexivity.
Qed.

(** ** Buffers *)

Lemma copy_into_length (data buf : list byte) :
  length (copy_into data buf) = length buf.
Proof.
  unfold copy_into, received.
  rewrite length_app, length_skipn, length_firstn. lia.
Qed.

Lemma received_nil (data : list byte) : received data [] = [].
Proof. reflexivity. Qed.

Lemma slice_2_4 (buf : list byte) :
  (4 <= length buf)%nat ->
  slice buf 2 4 = Some [nth 2 buf x00; nth 3 buf x00].
Proof.
  destruct buf as [|b0 [|b1 [|b2 [|b3 rest]]]]; simpl; intros H; try lia.
  reflexivity.
Qed.

(** Slicing [[2:4]] of the buffer after the response read never fails:
    the buffer is the command frame overwritten in place, 16 bytes long. *)
Lemma slice_response (data : list byte) :
  slice (copy_into data command_frame) 2 4
  = Some [nth 2 (copy_into data command_frame) x00;
          nth 3 (copy_into data command_frame) x00].
Proof. apply slice_2_4. rewrite copy_into_length. simpl. lia. Qed.

#[local] Arguments copy_into : simpl never.
#[local] Arguments received : simpl never.
#[local] Arguments slice : simpl never.
#[local] Arguments Z.lor : simpl never.
#[local] Arguments to_uint8 : simpl never.
#[local] Arguments New.classify : simpl never.
#[local] Arguments Old.classify : simpl never.
#[local] Arguments New.report : simpl never.
#[local] Arguments Old.report : simpl never.

#[local] Arguments New.read_le_int16 : simpl never.
#[local] Arguments Old.read_le_int16 : simpl never.

Create Rewrite HintDb obs.

(** ** Walking the paths of main.go *)

Ltac unfold_go :=
  unfold run_main, bind, fatal_if_err, log_Fatal, log_Printf, emit, defer,
    ret, ep_Read, ep_Write, go_slice, index, start.

(** One step along a path: the next call into the library is replaced by
    its result, which is kept as an equation. *)
Ltac new_oracle t :=
  match goal with
  | |- context [New.open_device t ?a ?b] =>
      destruct (New.open_device t a b) as [? [?|]] eqn:?
  | |- context [New.default_interface t ?d] =>
      destruct (New.default_interface t d) as [?|] eqn:?
  | |- context [New.in_endpoint t ?n] =>
      destruct (New.in_endpoint t n) as [?|] eqn:?
  | |- context [New.out_endpoint t ?n] =>
      destruct (New.out_endpoint t n) as [?|] eqn:?
  | |- context [read_reply (New.io t) ?k] =>
      destruct (read_reply (New.io t) k) as [? [?|]] eqn:?
  | |- context [write_reply (New.io t) ?d] =>
      destruct (write_reply (New.io t) d) as [? ?] eqn:?
  | |- context [?n =? 16] => destruct (n =? 16) eqn:?
  | |- context [slice (copy_into ?d command_frame) 2 4] =>
      rewrite (slice_response d)
  end.

(** Splits a goal about [New.run fl t] into one goal per path, each with
    its trace written out. *)
Ltac new_paths t :=
  unfold New.run, New.main; unfold_go; cbn;
  repeat (new_oracle t; cbn; rewrite ?received_nil; cbn);
  repeat (progress autorewrite with obs; cbn).

(** Evaluates the path predicates with the equations of the path. *)
Ltac use_path :=
  cbn;
  repeat match goal with
         | H : ?x = _ |- context [?x] => rewrite H; cbn
         end.

(** Case analysis on the reading a path classifies. *)
Ltac by_reading :=
  repeat match goal with
         | |- context [New.classify ?v] => destruct (New.classify v)
         | |- context [Old.classify ?v] => destruct (Old.classify v)
         end;
  unfold New.report, Old.report; cbn;
  repeat (progress autorewrite with obs; cbn).

Ltac new_predicates :=
  unfold NewPath.exchange_completes, NewPath.reaches_decode,
    NewPath.reaches_write, NewPath.opens, NewPath.response_voc,
    NewPath.response_buffer; cbn.

(** ** Release of resources *)

(** A fatal exit of main.go releases nothing: the deferred [ctx.Close()],
    [dev.Close()] and [done()] are skipped. *)
Lemma new_fatal_exit_releases_nothing (fl : Flags) (t : New.Transport) :
  fst (New.run fl t) <> 0 -> releases (snd (New.run fl t)) = [].
Proof.
  new_paths t; intros H; try reflexivity; contradiction.
Qed.

(** A normal return of main.go releases the interface, the device and the
    context, in this order, each once. *)
Lemma new_normal_return_releases_once (fl : Flags) (t : New.Transport) :
  fst (New.run fl t) = 0 ->
  releases (snd (New.run fl t))
  = [EvInterfaceDone; EvDevClose (fst (New.open_device t 0x03eb 0x2013));
     EvCtxClose].
Proof.
  new_paths t; intros H; try reflexivity; discriminate.
Qed.

(** main.go exits with 0 or 1; in particular it never panics. *)
Lemma new_exit_code (fl : Flags) (t : New.Transport) :
  fst (New.run fl t) = 0 \/ fst (New.run fl t) = 1.
Proof.
  new_paths t; auto.
Qed.

(** C1: release on every exit path fails on both programs. On main.go,
    with a device that opens and an interface that cannot be claimed, the
    run ends with exit code 1 right after the fatal log line: the context
    and the device were acquired, and no release call is made. On the
    earlier program, with two devices opened by [ListDevices] and an
    endpoint that cannot be opened, the run ends the same way and neither
    device nor the context is closed. *)
Theorem fatal_exit_skips_release :
  New.run default_flags interface_busy
  = (1, [EvNewContext; EvCtxDebug 3; EvLog (MsgScanning "03eb:2013");
         EvOpenDeviceWithVIDPID 0x03eb 0x2013;
         EvDefaultInterface (Some 7%nat);
         EvLog (MsgFatalDefaultInterface "busy"%string)])
  /\ releases (snd (New.run default_flags interface_busy)) = []
  /\ Old.run DIR_IN DIR_OUT default_flags old_endpoint_busy
     = (1, [EvNewContext; EvCtxDebug 3; EvLog (MsgScanning "03eb:2013");
            EvListDevices;
            EvPrintDescriptor "03eb" "2013"; EvPrintDescriptor "03eb" "2013";
            EvLog MsgConnecting; EvDumpDescriptor "03eb" "2013";
            EvOpenEndpoint (Some 4%nat) 1 0 0 0x81;
            EvLog (MsgFatalInEndpoint "busy"%string)])
  /\ releases (snd (Old.run DIR_IN DIR_OUT default_flags old_endpoint_busy))
     = [].
Proof.
  repeat split; reflexivity.
Qed.

(** ** Walking the paths of the earlier program *)

(** [ListDevices] with the callback of [main] returns the attached devices
    whose id is the [device] flag, and prints each of them. *)
Lemma walk_each (fl : Flags) (ds : list Old.Device) (p : proc) :
  Old.walk (Old.each fl) ds p
  = (Continue (filter (OldPath.matches fl) ds),
     mkProc (trace p ++ printed (filter (OldPath.matches fl) ds))
       (defers p) (reads p)).
Proof.
  revert p. induction ds as [|d ds IH]; intros p.
  - simpl. unfold ret. rewrite app_nil_r. destruct p; reflexivity.
  - simpl. unfold bind at 1. unfold Old.each, OldPath.matches in *.
    destruct (String.eqb _ _); simpl.
    + unfold bind, emit, ret. simpl. rewrite IH. simpl.
      rewrite <- app_assoc. reflexivity.
    + unfold bind, ret. rewrite IH. reflexivity.
Qed.

Section Observations.

Variables (devs : list Old.Device) (tr : list event).

Lemma releases_printed : releases (printed devs ++ tr) = releases tr.
Proof. induction devs; simpl; auto. Qed.

Lemma endpoint_ops_printed :
  endpoint_ops (printed devs ++ tr) = endpoint_ops tr.
Proof. induction devs; simpl; auto. Qed.

Lemma endpoint_opens_printed :
  endpoint_opens (printed devs ++ tr) = endpoint_opens tr.
Proof. induction devs; simpl; auto. Qed.

Lemma first_read_printed : first_read (printed devs ++ tr) = first_read tr.
Proof. induction devs; simpl; auto. Qed.

Lemma writes_printed : writes (printed devs ++ tr) = writes tr.
Proof. induction devs; simpl; auto. Qed.

Lemma reported_printed : reported (printed devs ++ tr) = reported tr.
Proof. induction devs; simpl; auto. Qed.

Lemma fatals_printed : fatals (printed devs ++ tr) = fatals tr.
Proof. induction devs; simpl; auto. Qed.

End Observations.

Lemma releases_closed (devs : list Old.Device) (tr : list event) :
  releases (closed devs ++ tr) = closed devs ++ releases tr.
Proof.
  unfold closed. induction devs; simpl; [|f_equal]; auto.
Qed.

Section ClosedObservations.

Variables (devs : list Old.Device) (tr : list event).

Lemma endpoint_ops_closed :
  endpoint_ops (closed devs ++ tr) = endpoint_ops tr.
Proof. unfold closed. induction devs; simpl; auto. Qed.

Lemma endpoint_opens_closed :
  endpoint_opens (closed devs ++ tr) = endpoint_opens tr.
Proof. unfold closed. induction devs; simpl; auto. Qed.

Lemma first_read_closed : first_read (closed devs ++ tr) = first_read tr.
Proof. unfold closed. induction devs; simpl; auto. Qed.

Lemma writes_closed : writes (closed devs ++ tr) = writes tr.
Proof. unfold closed. induction devs; simpl; auto. Qed.

Lemma reported_closed : reported (closed devs ++ tr) = reported tr.
Proof. unfold closed. induction devs; simpl; auto. Qed.

Lemma fatals_closed : fatals (closed devs ++ tr) = fatals tr.
Proof. unfold closed. induction devs; simpl; auto. Qed.

End ClosedObservations.

Lemma closed_cons (h : nat) (devs : list Old.Device) (tr : list event) :
  EvDevClose (Some h)
    :: map (fun h => EvDevClose (Some h)) (map Old.handle devs) ++ tr
  = EvDevClose (Some h) :: closed devs ++ tr.
Proof. reflexivity. Qed.

#[local] Hint Rewrite closed_cons releases_printed endpoint_ops_printed
  endpoint_opens_printed first_read_printed writes_printed
  reported_printed fatals_printed releases_closed endpoint_ops_closed
  endpoint_opens_closed first_read_closed writes_closed reported_closed
  fatals_closed : obs.

Ltac old_oracle t :=
  match goal with
  | |- context [Old.list_err t] => destruct (Old.list_err t) as [?|] eqn:?
  | |- context [Old.open_endpoint t ?h ?c ?i ?s ?a] =>
      destruct (Old.open_endpoint t h c i s a) as [?|] eqn:?
  | |- context [read_reply (Old.io t) ?k] =>
      destruct (read_reply (Old.io t) k) as [? [?|]] eqn:?
  | |- context [write_reply (Old.io t) ?d] =>
      destruct (write_reply (Old.io t) d) as [? [?|]] eqn:?
  | |- context [slice (copy_into ?d command_frame) 2 4] =>
      rewrite (slice_response d)
  end.

(** Splits a goal about [Old.run i o fl t] into one goal per path. In each
    trace the printed descriptors are followed by the events written out. *)
Ltac old_paths fl t :=
  unfold Old.run, Old.main, Old.ListDevices; unfold_go; cbn;
  rewrite walk_each; cbn;
  fold (OldPath.found fl t);
  destruct (OldPath.found fl t) as [|? ?] eqn:?; cbn;
  repeat (old_oracle t; cbn; rewrite ?received_nil; cbn);
  rewrite <- ?app_assoc; cbn;
  repeat (progress autorewrite with obs; cbn).

Ltac old_predicates :=
  unfold OldPath.exchange_completes, OldPath.reaches_decode,
    OldPath.reaches_write, OldPath.opens, OldPath.response_voc,
    OldPath.response_buffer, OldPath.endpoint_pair, OldPath.addr_in,
    OldPath.addr_out; cbn.

(** A fatal exit of the earlier program releases nothing either. *)
Lemma old_fatal_exit_releases_nothing
  (i o : Z) (fl : Flags) (t : Old.Transport) :
  fst (Old.run i o fl t) <> 0 -> releases (snd (Old.run i o fl t)) = [].
Proof.
  old_paths fl t; intros H; try reflexivity; contradiction.
Qed.

(** A normal return closes every device [ListDevices] returned, then the
    context. *)
Lemma old_normal_return_releases_once
  (i o : Z) (fl : Flags) (t : Old.Transport) :
  fst (Old.run i o fl t) = 0 ->
  releases (snd (Old.run i o fl t))
  = closed (OldPath.found fl t) ++ [EvCtxClose].
Proof.
  old_paths fl t; intros H; try discriminate; reflexivity.
Qed.

(** The earlier program exits with 0 or 1 as well. *)
Lemma old_exit_code (i o : Z) (fl : Flags) (t : Old.Transport) :
  fst (Old.run i o fl t) = 0 \/ fst (Old.run i o fl t) = 1.
Proof.
  old_paths fl t; auto.
Qed.

(** ** What a run reports *)

Lemma response_voc_nth (data : list byte) :
  match slice (copy_into data command_frame) 2 4 with
  | Some s => New.read_le_int16 s
  | None => 0
  end
  = int16 (LittleEndian_Uint16 (nth 2 (copy_into data command_frame) x00)
             (nth 3 (copy_into data command_frame) x00)).
Proof. rewrite slice_response. reflexivity. Qed.

(** main.go reports one classified reading when the decode is reached, and
    none otherwise. *)
Lemma new_reported (fl : Flags) (t : New.Transport) :
  reported (snd (New.run fl t))
  = if NewPath.reaches_decode t
    then [New.classify (NewPath.response_voc t)] else [].
Proof.
  new_paths t; new_predicates; use_path; try reflexivity;
    rewrite slice_response; by_reading; reflexivity.
Qed.

(** main.go exits with 0 exactly when the whole exchange completes, and
    with 1 otherwise. *)
Lemma new_exit_zero_iff (fl : Flags) (t : New.Transport) :
  fst (New.run fl t) = (if NewPath.exchange_completes t then 0 else 1).
Proof.
  new_paths t; new_predicates; use_path; reflexivity.
Qed.

(** No fatal line is logged on a run that completes. *)
Lemma new_fatals (fl : Flags) (t : New.Transport) :
  NewPath.exchange_completes t = true -> fatals (snd (New.run fl t)) = [].
Proof.
  new_paths t; new_predicates; use_path; intros H; try discriminate;
    by_reading; reflexivity.
Qed.

Lemma old_reported (i o : Z) (fl : Flags) (t : Old.Transport) :
  reported (snd (Old.run i o fl t))
  = if OldPath.reaches_decode i o fl t
    then [Old.classify (OldPath.response_voc t)] else [].
Proof.
  old_paths fl t; old_predicates; use_path; try reflexivity;
    rewrite slice_response; by_reading; reflexivity.
Qed.

(** The earlier program exits with 0 exactly when its exchange completes. *)
Lemma old_exit_zero_iff (i o : Z) (fl : Flags) (t : Old.Transport) :
  fst (Old.run i o fl t)
  = (if OldPath.exchange_completes i o fl t then 0 else 1).
Proof.
  old_paths fl t; old_predicates; use_path; reflexivity.
Qed.

Lemma old_fatals (i o : Z) (fl : Flags) (t : Old.Transport) :
  OldPath.exchange_completes i o fl t = true ->
  fatals (snd (Old.run i o fl t)) = [].
Proof.
  old_paths fl t; old_predicates; use_path; intros H; try discriminate;
    by_reading; reflexivity.
Qed.

(** ** The write step *)

(** Every write of main.go sends the 16-byte command frame. *)
Lemma new_writes_command_frame (fl : Flags) (t : New.Transport) :
  writes (snd (New.run fl t))
  = if NewPath.reaches_write t
    then [(command_frame, fst (write_reply (New.io t) command_frame))]
    else [].
Proof.
  new_paths t; new_predicates; use_path; by_reading; reflexivity.
Qed.

Lemma command_frame_length : length command_frame = 16%nat.
Proof. reflexivity. Qed.

(** In main.go a write that reports any count other than 16 is fatal,
    whatever error the library reports with it. *)
Lemma new_short_write_is_fatal (fl : Flags) (t : New.Transport) :
  NewPath.reaches_write t = true ->
  fst (write_reply (New.io t) command_frame) <> 16 ->
  fst (New.run fl t) = 1
  /\ fatals (snd (New.run fl t))
     = [MsgFatalWrite (snd (write_reply (New.io t) command_frame))]
  /\ reported (snd (New.run fl t)) = [].
Proof.
  intros Hw Hn. rewrite new_exit_zero_iff, new_reported.
  unfold NewPath.exchange_completes, NewPath.reaches_decode.
  apply Z.eqb_neq in Hn. rewrite Hw, Hn. cbn.
  repeat split.
  revert Hw Hn.
  new_paths t; new_predicates; use_path; intros Hw Hn;
    try discriminate; reflexivity.
Qed.

(** C4: the earlier program does not treat a short write as a failure.
    With a write that reports 10 of 16 bytes and no error, it logs no fatal
    line, goes on to read and decode the response, and exits with 0; the
    write step of that program tests the error only. *)
Theorem old_short_write_goes_on :
  writes (snd (Old.run DIR_IN DIR_OUT default_flags old_short_write))
  = [(command_frame, 10)]
  /\ fst (Old.run DIR_IN DIR_OUT default_flags old_short_write) = 0
  /\ fatals (snd (Old.run DIR_IN DIR_OUT default_flags old_short_write)) = []
  /\ reported (snd (Old.run DIR_IN DIR_OUT default_flags old_short_write))
     = [OutOfRange 21546].
Proof.
  repeat split; vm_compute; reflexivity.
Qed.

(** main.go on the same device: the run ends at the write step. *)
Lemma new_short_write_run :
  fst (New.run default_flags sensor_short_write) = 1
  /\ fatals (snd (New.run default_flags sensor_short_write))
     = [MsgFatalWrite None].
Proof.
  split; vm_compute; reflexivity.
Qed.

(** ** Which endpoints are opened *)

(** The [endpoint] option is never read by either program. *)
Lemma endpoint_flag_unused
  (fl : Flags) (e i o : Z) (t : New.Transport) (ot : Old.Transport) :
  New.run (with_endpoint fl e) t = New.run fl t
  /\ Old.run i o (with_endpoint fl e) ot = Old.run i o fl ot.
Proof. split; reflexivity. Qed.

(** With [endpoint] set to 5 main.go still opens IN endpoint 1 and OUT
    endpoint 2, so the endpoints opened are not the configured ones. *)
Lemma endpoint_flag_ignored :
  endpoint (with_endpoint default_flags 5) = 5
  /\ endpoint_opens (snd (New.run (with_endpoint default_flags 5) (sensor [])))
     = [EvInEndpoint 1; EvOutEndpoint 2]
  /\ ~ endpoints_follow_configuration.
Proof.
  split; [reflexivity|]. split; [vm_compute; reflexivity|].
  intros H.
  specialize (H (with_endpoint default_flags 5) (sensor []) 1).
  assert (E : 1 = endpoint (with_endpoint default_flags 5)).
  { apply H. left. vm_compute. tauto. }
  discriminate E.
Qed.

(** C5, as the programs have it: the endpoints opened are fixed. main.go
    opens IN endpoint 1, then OUT endpoint 2; the earlier program opens
    address [1 | ENDPOINT_DIR_IN], then [2 | ENDPOINT_DIR_OUT], on the first
    device found. A run opens a prefix of these two (it stops at the first
    failure), and changing the [endpoint] option changes nothing. *)
Theorem endpoints_are_fixed
  (fl : Flags) (e i o : Z) (t : New.Transport) (ot : Old.Transport) :
  (exists k, endpoint_opens (snd (New.run fl t))
             = firstn k [EvInEndpoint 1; EvOutEndpoint 2])
  /\ (exists k, endpoint_opens (snd (Old.run i o fl ot))
                = firstn k (OldPath.endpoint_pair i o fl ot))
  /\ New.run (with_endpoint fl e) t = New.run fl t
  /\ Old.run i o (with_endpoint fl e) ot = Old.run i o fl ot.
Proof.
  split; [|split; [|apply endpoint_flag_unused]].
  - new_paths t; by_reading;
      first [ exists 0%nat; reflexivity
            | exists 1%nat; reflexivity
            | exists 2%nat; reflexivity ].
  - old_paths fl ot; old_predicates; use_path; by_reading;
      first [ exists 0%nat; reflexivity
            | exists 1%nat; reflexivity
            | exists 2%nat; reflexivity ].
Qed.

(** Both endpoints are opened when nothing fails before. *)
Lemma new_opens_both (fl : Flags) (t : New.Transport) :
  NewPath.opens t = true ->
  endpoint_opens (snd (New.run fl t)) = [EvInEndpoint 1; EvOutEndpoint 2].
Proof.
  new_paths t; new_predicates; use_path; intros H; try discriminate;
    by_reading; reflexivity.
Qed.

(** ** Completed exchanges *)

(** C6: a run in which both flushes, the write and the response read
    succeed exits with code 0 whether or not the decoded value is in
    range. It logs no fatal line and reports exactly one reading, the
    classification of the decoded value: an out-of-range value is reported
    as [OutOfRange] with the raw value, not as a failure and not as a valid
    reading. This holds for main.go and for the earlier program. *)
Theorem completed_exchange_exits_zero
  (fl : Flags) (i o : Z) (t : New.Transport) (ot : Old.Transport) :
  (NewPath.exchange_completes t = true ->
   fst (New.run fl t) = 0
   /\ fatals (snd (New.run fl t)) = []
   /\ reported (snd (New.run fl t)) = [New.classify (NewPath.response_voc t)]
   /\ (~ 450 <= NewPath.response_voc t <= 2000 ->
       reported (snd (New.run fl t))
       = [OutOfRange (NewPath.response_voc t)]))
  /\ (OldPath.exchange_completes i o fl ot = true ->
      fst (Old.run i o fl ot) = 0
      /\ fatals (snd (Old.run i o fl ot)) = []
      /\ reported (snd (Old.run i o fl ot))
         = [Old.classify (OldPath.response_voc ot)]
      /\ (~ 450 <= OldPath.response_voc ot <= 2000 ->
          reported (snd (Old.run i o fl ot))
          = [OutOfRange (OldPath.response_voc ot)])).
Proof.
  split; intros H.
  - assert (Hd : NewPath.reaches_decode t = true).
    { unfold NewPath.exchange_completes in H.
      apply andb_true_iff in H. tauto. }
    rewrite new_exit_zero_iff, new_reported, H, Hd.
    repeat split; [apply new_fatals; exact H|].
    intros Hr.
    destruct (new_classify_cases (NewPath.response_voc t)) as [[? _] | [_ ->]];
      [contradiction | reflexivity].
  - assert (Hd : OldPath.reaches_decode i o fl ot = true).
    { unfold OldPath.exchange_completes in H.
      apply andb_true_iff in H. tauto. }
    rewrite old_exit_zero_iff, old_reported, H, Hd.
    repeat split; [apply old_fatals; exact H|].
    intros Hr.
    destruct (old_classify_cases (OldPath.response_voc ot)) as [[? _] | [_ ->]];
      [contradiction | reflexivity].
Qed.

Lemma completed_exchange_witness :
  (NewPath.exchange_completes (sensor response_B) = true
   /\ OldPath.exchange_completes DIR_IN DIR_OUT default_flags
        (old_sensor response_B) = true)
  /\ (fst (New.run default_flags (sensor response_B)) = 0
   /\ reported (snd (New.run default_flags (sensor response_B)))
      = [OutOfRange 32767])
  /\ (fst (Old.run DIR_IN DIR_OUT default_flags (old_sensor response_B)) = 0
      /\ reported
           (snd (Old.run DIR_IN DIR_OUT default_flags (old_sensor response_B)))
         = [OutOfRange 32767]).
Proof.
  destruct (completed_exchange_exits_zero default_flags DIR_IN DIR_OUT
              (sensor response_B) (old_sensor response_B)) as [Hn Ho].
  split; [split; reflexivity|].
  split.
  - destruct (Hn eq_refl) as (Hexit & _ & _ & Hout).
    split; [exact Hexit|].
    change (NewPath.response_voc (sensor response_B)) with 32767 in Hout.
    apply Hout. lia.
  - destruct (Ho eq_refl) as (Hexit & _ & _ & Hout).
    split; [exact Hexit|].
    change (OldPath.response_voc (old_sensor response_B)) with 32767 in Hout.
    apply Hout. lia.
Defined.

(** ** Device discovery *)

(** C7: main.go does not detect a missing device. When
    [OpenDeviceWithVIDPID] returns no device and no error, the run does not
    stop with a device-not-found failure: it goes on to claim the default
    interface of the nil device, and the only fatal line is the one of that
    later step. *)
Theorem missing_device_not_detected :
  New.run default_flags nothing_attached
  = (1, [EvNewContext; EvCtxDebug 3; EvLog (MsgScanning "03eb:2013");
         EvOpenDeviceWithVIDPID 0x03eb 0x2013;
         EvDefaultInterface None;
         EvLog (MsgFatalDefaultInterface "no device"%string)]).
Proof. reflexivity. Qed.

(** Whatever the library does next, main.go uses a nil device it was given
    without an error. *)
Lemma new_nil_device_is_used (fl : Flags) (t : New.Transport) :
  New.open_device t 0x03eb 0x2013 = (None, None) ->
  exists tr,
    snd (New.run fl t)
    = [EvNewContext; EvCtxDebug (debug fl); EvLog (MsgScanning (device fl));
       EvOpenDeviceWithVIDPID 0x03eb 0x2013; EvDefaultInterface None] ++ tr.
Proof.
  intros H. unfold New.run, New.main. unfold_go. cbn. rewrite H. cbn.
  repeat (new_oracle t; cbn; rewrite ?received_nil; cbn);
    eexists; reflexivity.
Qed.

(** The earlier program has the check: with no matching device it stops
    with "no devices found" and exit code 1 before any endpoint is opened,
    read or written. *)
Lemma old_no_devices_found (i o : Z) (fl : Flags) (t : Old.Transport) :
  OldPath.found fl t = [] ->
  fst (Old.run i o fl t) = 1
  /\ endpoint_ops (snd (Old.run i o fl t)) = []
  /\ (Old.list_err t = None ->
      Old.run i o fl t
      = (1, [EvNewContext; EvCtxDebug (debug fl);
             EvLog (MsgScanning (device fl)); EvListDevices;
             EvLog MsgFatalNoDevices])).
Proof.
  old_paths fl t; intros H; try discriminate;
    repeat split; intros; try discriminate; reflexivity.
Qed.

Lemma old_nothing_attached_run :
  Old.run DIR_IN DIR_OUT default_flags old_nothing_attached
  = (1, [EvNewContext; EvCtxDebug 3; EvLog (MsgScanning "03eb:2013");
         EvListDevices; EvLog MsgFatalNoDevices]).
Proof. reflexivity. Qed.

(** With several matching devices it uses the first: both sensors of [bus]
    are found, the endpoints are opened on the first one. *)
Lemma old_first_match_selected :
  map Old.handle (OldPath.found default_flags (old_sensor [])) = [4; 5]%nat
  /\ endpoint_opens
       (snd (Old.run DIR_IN DIR_OUT default_flags (old_sensor [])))
     = [EvOpenEndpoint (Some 4%nat) 1 0 0 0x81;
        EvOpenEndpoint (Some 4%nat) 1 0 0 0x02].
Proof. split; vm_compute; reflexivity. Qed.

(** ** The stale flush *)

(** C8: the first read of a run is issued with the nil buffer, of length
    0, and its byte count is 0: nothing the device delivers is received and
    the buffer stays empty. The read is issued exactly when the session
    opens. This holds for main.go and for the earlier program. *)
Theorem stale_flush_reads_nothing
  (fl : Flags) (i o : Z) (t : New.Transport) (ot : Old.Transport) :
  first_read (snd (New.run fl t))
  = (if NewPath.opens t then Some (0%nat, 0) else None)
  /\ first_read (snd (Old.run i o fl ot))
     = (if OldPath.opens i o fl ot then Some (0%nat, 0) else None)
  /\ (forall data : list byte,
        received data [] = [] /\ copy_into data [] = []).
Proof.
  split; [|split].
  - new_paths t; new_predicates; use_path; by_reading; reflexivity.
  - old_paths fl ot; old_predicates; use_path; by_reading; reflexivity.
  - intros data. split; reflexivity.
Qed.

(** ** Short responses *)

(** The value decoded from bytes 2 and 3 of a buffer. *)
Lemma read_le_int16_two (b2 b3 : byte) :
  New.read_le_int16 [b2; b3] = int16 (uint8 b2 + 256 * uint8 b3).
Proof.
  unfold New.read_le_int16, binary_Read_int16.
  rewrite LittleEndian_Uint16_sum. reflexivity.
Qed.

(** With at most two bytes received, bytes 2 and 3 of the buffer are still
    those of the command frame, 0x2a and 0x54. *)
Lemma response_short (data : list byte) :
  (length data < 3)%nat ->
  slice (copy_into data command_frame) 2 4 = Some [x2a; x54].
Proof.
  destruct data as [|a [|b [|c rest]]]; simpl; intros H;
    try reflexivity; lia.
Qed.

(** With exactly three bytes received, byte 2 is the third byte received
    and byte 3 is the 0x54 of the command frame. *)
Lemma response_three (data : list byte) :
  length data = 3%nat ->
  slice (copy_into data command_frame) 2 4 = Some [nth 2 data x00; x54].
Proof.
  destruct data as [|a [|b [|c [|d rest]]]]; simpl; intros H;
    try reflexivity; lia.
Qed.

(** A response of three zero bytes decodes to 21504, not to 21546. *)
Lemma short_response_three_bytes :
  NewPath.reaches_decode (sensor response_3) = true
  /\ length (fst (read_reply (New.io (sensor response_3)) 1)) = 3%nat
  /\ reported (snd (New.run default_flags (sensor response_3)))
     = [OutOfRange 21504]
  /\ ~ short_response_decodes_frame.
Proof.
  split; [reflexivity|]. split; [reflexivity|].
  assert (E : reported (snd (New.run default_flags (sensor response_3)))
              = [OutOfRange 21504]) by (vm_compute; reflexivity).
  split; [exact E|].
  intros H.
  specialize (H default_flags (sensor response_3) eq_refl).
  rewrite E in H.
  assert (C : [OutOfRange 21504] = [OutOfRange 21546]).
  { apply H. simpl. lia. }
  discriminate C.
Qed.

(** The value decoded from a response of exactly three bytes. *)
Lemma three_byte_voc (b2 : byte) :
  New.classify (New.read_le_int16 [b2; x54]) = OutOfRange (21504 + uint8 b2).
Proof.
  rewrite read_le_int16_two. pose proof (uint8_range b2).
  change (uint8 x54) with 84.
  replace (int16 (uint8 b2 + 256 * 84)) with (21504 + uint8 b2)
    by (unfold int16; Z.div_mod_to_equations; lia).
  destruct (new_classify_cases (21504 + uint8 b2)) as [[Hr _] | [_ ->]];
    [lia | reflexivity].
Qed.

(** C9, as the programs have it: slicing [[2:4]] of the buffer after the
    response read is always in bounds, because that buffer is the 16-byte
    command frame overwritten in place, and no run panics. When the
    response read delivers fewer than three bytes, the value is decoded
    from the untouched command-frame bytes 0x2a, 0x54 and is 21546; when it
    delivers exactly three, byte 2 is the third byte delivered and only
    byte 3 is the 0x54 of the frame, so the value is 21504 plus that byte.
    In both cases the reading is [OutOfRange]. The same holds for main.go
    and for the earlier program. *)
Theorem short_response_decoding
  (fl : Flags) (i o : Z) (t : New.Transport) (ot : Old.Transport) :
  (length (NewPath.response_buffer t) = 16%nat
   /\ slice (NewPath.response_buffer t) 2 4
      = Some [nth 2 (NewPath.response_buffer t) x00;
              nth 3 (NewPath.response_buffer t) x00]
   /\ fst (New.run fl t) <> 2
   /\ fst (Old.run i o fl ot) <> 2)
  /\ (NewPath.reaches_decode t = true ->
      ((length (fst (read_reply (New.io t) 1)) < 3)%nat ->
       reported (snd (New.run fl t)) = [OutOfRange 21546])
      /\ (length (fst (read_reply (New.io t) 1)) = 3%nat ->
          reported (snd (New.run fl t))
          = [OutOfRange
               (21504 + uint8 (nth 2 (fst (read_reply (New.io t) 1)) x00))]))
  /\ (OldPath.reaches_decode i o fl ot = true ->
      ((length (fst (read_reply (Old.io ot) 1)) < 3)%nat ->
       reported (snd (Old.run i o fl ot)) = [OutOfRange 21546])
      /\ (length (fst (read_reply (Old.io ot) 1)) = 3%nat ->
          reported (snd (Old.run i o fl ot))
          = [OutOfRange
               (21504
                + uint8 (nth 2 (fst (read_reply (Old.io ot) 1)) x00))])).
Proof.
  split; [|split].
  - unfold NewPath.response_buffer. split; [|split; [|split]].
    + rewrite copy_into_length. reflexivity.
    + apply slice_response.
    + destruct (new_exit_code fl t) as [-> | ->]; discriminate.
    + destruct (old_exit_code i o fl ot) as [-> | ->]; discriminate.
  - intros Hd. rewrite new_reported, Hd.
    unfold NewPath.response_voc, NewPath.response_buffer.
    split; intros Hlen.
    + rewrite (response_short _ Hlen). reflexivity.
    + rewrite (response_three _ Hlen), three_byte_voc. reflexivity.
  - intros Hd. rewrite old_reported, Hd.
    unfold OldPath.response_voc, OldPath.response_buffer.
    split; intros Hlen.
    + rewrite (response_short _ Hlen). reflexivity.
    + rewrite (response_three _ Hlen).
      exact (f_equal (fun r => [r]) (three_byte_voc _)).
Qed.

Lemma short_response_decoding_witness :
  NewPath.reaches_decode (sensor [x00; x00]) = true
  /\ OldPath.reaches_decode DIR_IN DIR_OUT default_flags
       (old_sensor response_3) = true
  /\ reported (snd (New.run default_flags (sensor [x00; x00])))
     = [OutOfRange 21546]
  /\ reported
       (snd (Old.run DIR_IN DIR_OUT default_flags (old_sensor response_3)))
     = [OutOfRange 21504].
Proof.
  destruct (short_response_decoding default_flags DIR_IN DIR_OUT
              (sensor [x00; x00]) (old_sensor response_3))
    as (_ & Hn & Ho).
  split; [reflexivity|]. split; [reflexivity|].
  split.
  - apply (Hn eq_refl). simpl. lia.
  - apply (Ho eq_refl). reflexivity.
Defined.

(** * Further properties of the two programs *)

(** ** The decoder on arbitrary input *)

Lemma uint8_inj (a b : byte) : uint8 a = uint8 b -> a = b.
Proof.
  intros H. rewrite <- (byte_of_Z_uint8 a), <- (byte_of_Z_uint8 b), H.
  reflexivity.
Qed.

(** X1: [read_le_int16] never fails and never leaves the int16 range. On
    fewer than two bytes the error of [binary.Read] is dropped and the
    result is 0; on two or more bytes only the first two count. The same
    in both programs. *)
Theorem decoder_total (data : list byte) :
  -32768 <= New.read_le_int16 data < 32768
  /\ New.read_le_int16 data
     = match data with
       | lo :: hi :: _ => New.read_le_int16 [lo; hi]
       | _ => 0
       end
  /\ New.read_le_int16 (firstn 2 data) = New.read_le_int16 data
  /\ Old.read_le_int16 data = New.read_le_int16 data.
Proof.
  split; [|split; [|split]].
  - unfold New.read_le_int16, binary_Read_int16.
    destruct data as [|lo [|hi rest]]; try lia. apply int16_range.
  - destruct data as [|lo [|hi rest]]; reflexivity.
  - destruct data as [|lo [|hi rest]]; reflexivity.
  - reflexivity.
Qed.

(** X2: decoding inverts the reference little-endian encoder on every
    value of the int16 range, negative values included. *)
Theorem decode_encode_roundtrip (v : Z) :
  -32768 <= v < 32768 ->
  New.read_le_int16 (encode_le_int16 v) = v
  /\ Old.read_le_int16 (encode_le_int16 v) = v.
Proof.
  intros Hv. split; apply read_le_int16_encode; exact Hv.
Qed.

Lemma decode_encode_roundtrip_witness :
  -32768 <= -2 < 32768
  /\ encode_le_int16 (-2) = [xfe; xff]
  /\ New.read_le_int16 [xfe; xff] = -2.
Proof.
  split; [lia|]. split; [reflexivity|].
  apply (decode_encode_roundtrip (-2)). lia.
Defined.

(** X3: distinct byte pairs decode to distinct values. *)
Theorem decoder_injective (a b c d : byte) :
  New.read_le_int16 [a; b] = New.read_le_int16 [c; d] -> a = c /\ b = d.
Proof.
  rewrite !read_le_int16_two. unfold int16. intros H.
  pose proof (uint8_range a). pose proof (uint8_range b).
  pose proof (uint8_range c). pose proof (uint8_range d).
  assert (E : uint8 a + 256 * uint8 b = uint8 c + 256 * uint8 d).
  { revert H. Z.div_mod_to_equations. lia. }
  split; apply uint8_inj; lia.
Qed.

Lemma decoder_injective_witness :
  New.read_le_int16 [xc2; x06] = New.read_le_int16 [xc2; x06]
  /\ (xc2 = xc2 /\ x06 = x06).
Proof.
  split; [reflexivity|].
  apply (decoder_injective xc2 x06 xc2 x06). reflexivity.
Defined.

(** ** Responses of four bytes or more *)

(** With four bytes or more received, bytes 2 and 3 of the buffer are
    bytes 2 and 3 of what the device delivered. *)
Lemma response_long (data : list byte) :
  (4 <= length data)%nat ->
  slice (copy_into data command_frame) 2 4
  = Some [nth 2 data x00; nth 3 data x00].
Proof.
  intros H. rewrite slice_response.
  destruct data as [|a [|b [|c [|d rest]]]]; simpl in H; try lia.
  reflexivity.
Qed.

(** X4: when the response read delivers four bytes or more, the reading
    reported is the classification of the little-endian int16 made of
    delivered bytes 2 and 3; bytes 0, 1 and everything from byte 4 on,
    also beyond the 16 bytes of the buffer, have no influence. The same in
    both programs. *)
Theorem long_response_decoding
  (fl : Flags) (i o : Z) (t : New.Transport) (ot : Old.Transport) :
  (NewPath.reaches_decode t = true ->
   (4 <= length (fst (read_reply (New.io t) 1)))%nat ->
   reported (snd (New.run fl t))
   = [New.classify
        (New.read_le_int16
           [nth 2 (fst (read_reply (New.io t) 1)) x00;
            nth 3 (fst (read_reply (New.io t) 1)) x00])])
  /\ (OldPath.reaches_decode i o fl ot = true ->
      (4 <= length (fst (read_reply (Old.io ot) 1)))%nat ->
      reported (snd (Old.run i o fl ot))
      = [Old.classify
           (Old.read_le_int16
              [nth 2 (fst (read_reply (Old.io ot) 1)) x00;
               nth 3 (fst (read_reply (Old.io ot) 1)) x00])]).
Proof.
  split; intros Hd Hlen.
  - rewrite new_reported, Hd.
    unfold NewPath.response_voc, NewPath.response_buffer.
    rewrite (response_long _ Hlen). reflexivity.
  - rewrite old_reported, Hd.
    unfold OldPath.response_voc, OldPath.response_buffer.
    rewrite (response_long _ Hlen). reflexivity.
Qed.

Lemma long_response_decoding_witness :
  (NewPath.reaches_decode (sensor response_A) = true
   /\ length response_A = 18%nat)
  /\ reported (snd (New.run default_flags (sensor response_A)))
     = [Valid 1730]
  /\ reported
       (snd (Old.run DIR_IN DIR_OUT default_flags (old_sensor response_A)))
     = [Valid 1730].
Proof.
  destruct (long_response_decoding default_flags DIR_IN DIR_OUT
              (sensor response_A) (old_sensor response_A)) as [Hn Ho].
  split; [split; reflexivity|].
  split.
  - apply (Hn eq_refl). simpl. lia.
  - apply (Ho eq_refl). simpl. lia.
Defined.

(** ** More observations through the symbolic parts of a trace *)

Section MoreObservations.

Variables (devs : list Old.Device) (tr : list event).

Lemma io_calls_printed : io_calls (printed devs ++ tr) = io_calls tr.
Proof. induction devs; simpl; auto. Qed.

Lemma io_calls_closed : io_calls (closed devs ++ tr) = io_calls tr.
Proof. unfold closed. induction devs; simpl; auto. Qed.

Lemma last_event_app (tr1 : list event) :
  last_event (tr1 ++ tr)
  = match last_event tr with
    | None => last_event tr1
    | Some e => Some e
    end.
Proof.
  induction tr1 as [|e tr1 IH]; simpl.
  - destruct (last_event tr); reflexivity.
  - rewrite IH. destruct (last_event tr); reflexivity.
Qed.

End MoreObservations.

#[local] Hint Rewrite io_calls_printed io_calls_closed last_event_app : obs.

(** ** Exit codes *)



(** ** Order of the I/O *)

(** X7: the reads and writes of a run are an initial part of the fixed
    sequence: read into the nil buffer, write of the command frame, read
    into the 16-byte buffer, read into the 16-byte buffer. The run stops
    after the first of them that fails by the program's test. *)
Theorem io_order
  (fl : Flags) (i o : Z) (t : New.Transport) (ot : Old.Transport) :
  io_calls (snd (New.run fl t)) = firstn (new_io_steps t) exchange
  /\ io_calls (snd (Old.run i o fl ot))
     = firstn (old_io_steps i o fl ot) exchange.
Proof.
  split.
  - unfold new_io_steps.
    new_paths t; new_predicates; use_path; by_reading;
      rewrite ?copy_into_length; reflexivity.
  - unfold old_io_steps.
    old_paths fl ot; old_predicates; use_path; by_reading;
      rewrite ?copy_into_length; reflexivity.
Qed.

(** ** Failures late in the exchange *)

(** X8: a failure of the trailing flush comes after the reading has been
    logged: the run exits with 1 and the fatal read line, and the reading
    decoded from the response is on the log all the same. *)
Theorem trailing_flush_failure
  (fl : Flags) (i o : Z) (t : New.Transport) (ot : Old.Transport) :
  (NewPath.reaches_decode t = true ->
   snd (read_reply (New.io t) 2) <> None ->
   fst (New.run fl t) = 1
   /\ fatals (snd (New.run fl t)) = [MsgFatalRead]
   /\ reported (snd (New.run fl t))
      = [New.classify (NewPath.response_voc t)])
  /\ (OldPath.reaches_decode i o fl ot = true ->
      snd (read_reply (Old.io ot) 2) <> None ->
      fst (Old.run i o fl ot) = 1
      /\ fatals (snd (Old.run i o fl ot)) = [MsgFatalRead]
      /\ reported (snd (Old.run i o fl ot))
         = [Old.classify (OldPath.response_voc ot)]).
Proof.
  split.
  - intros Hd Hf. rewrite new_reported, Hd.
    split; [|split; [|reflexivity]]; revert Hd Hf;
      new_paths t; new_predicates; use_path; intros Hd Hf;
      try discriminate; try contradiction; by_reading; reflexivity.
  - intros Hd Hf. rewrite old_reported, Hd.
    split; [|split; [|reflexivity]]; revert Hd Hf;
      old_paths fl ot; old_predicates; use_path; intros Hd Hf;
      try discriminate; try contradiction; by_reading; reflexivity.
Qed.

Lemma trailing_flush_failure_witness :
  (NewPath.reaches_decode sensor_flush_fails = true
   /\ OldPath.reaches_decode DIR_IN DIR_OUT default_flags old_flush_fails
      = true)
  /\ (fst (New.run default_flags sensor_flush_fails) = 1
      /\ reported (snd (New.run default_flags sensor_flush_fails))
         = [Valid 1730])
  /\ (fst (Old.run DIR_IN DIR_OUT default_flags old_flush_fails) = 1
      /\ reported
           (snd (Old.run DIR_IN DIR_OUT default_flags old_flush_fails))
         = [Valid 1730]).
Proof.
  destruct (trailing_flush_failure default_flags DIR_IN DIR_OUT
              sensor_flush_fails old_flush_fails) as [Hn Ho].
  split; [split; reflexivity|].
  split.
  - destruct (Hn eq_refl) as (Hexit & _ & Hrep); [discriminate|].
    split; [exact Hexit | exact Hrep].
  - destruct (Ho eq_refl) as (Hexit & _ & Hrep); [discriminate|].
    split; [exact Hexit | exact Hrep].
Defined.

(** ** The two tests of the write result *)

(** X9: main.go looks at the count of the write only. When the library
    reports all 16 bytes written together with an error, the error is
    ignored: no fatal write line is logged and the response read is
    issued. *)
Theorem new_write_error_ignored (fl : Flags) (t : New.Transport) :
  NewPath.reaches_write t = true ->
  fst (write_reply (New.io t) command_frame) = 16 ->
  writes (snd (New.run fl t)) = [(command_frame, 16)]
  /\ firstn 3 (io_calls (snd (New.run fl t)))
     = [IORead 0; IOWrite command_frame; IORead 16]
  /\ ~ In (MsgFatalWrite (snd (write_reply (New.io t) command_frame)))
         (fatals (snd (New.run fl t))).
Proof.
  new_paths t; new_predicates; use_path; intros Hw Hn;
    try discriminate; subst; try discriminate;
    by_reading; repeat split; try reflexivity;
    simpl; intuition discriminate.
Qed.

Lemma new_write_error_ignored_witness :
  (NewPath.reaches_write sensor_write_stalls = true
   /\ write_reply (New.io sensor_write_stalls) command_frame
      = (16, Some "stall"%string))
  /\ fatals (snd (New.run default_flags sensor_write_stalls)) = []
  /\ firstn 3 (io_calls (snd (New.run default_flags sensor_write_stalls)))
     = [IORead 0; IOWrite command_frame; IORead 16].
Proof.
  split; [split; reflexivity|].
  split; [reflexivity|].
  apply (new_write_error_ignored default_flags sensor_write_stalls);
    reflexivity.
Defined.

(** X10: the earlier program looks at the error of the write only. An
    error is fatal whatever the count, also when all 16 bytes are reported
    written: the run stops after the write with exit code 1 and nothing is
    decoded. *)
Theorem old_write_error_is_fatal
  (i o : Z) (fl : Flags) (t : Old.Transport) (e : error) :
  OldPath.reaches_write i o fl t = true ->
  snd (write_reply (Old.io t) command_frame) = Some e ->
  fst (Old.run i o fl t) = 1
  /\ fatals (snd (Old.run i o fl t)) = [MsgFatalWrite (Some e)]
  /\ io_calls (snd (Old.run i o fl t)) = [IORead 0; IOWrite command_frame]
  /\ reported (snd (Old.run i o fl t)) = [].
Proof.
  old_paths fl t; old_predicates; use_path; intros Hw He;
    try discriminate; injection He as ->; repeat split; reflexivity.
Qed.

Lemma old_write_error_is_fatal_witness :
  (OldPath.reaches_write DIR_IN DIR_OUT default_flags old_write_stalls = true
   /\ write_reply (Old.io old_write_stalls) command_frame
      = (16, Some "stall"%string))
  /\ fst (Old.run DIR_IN DIR_OUT default_flags old_write_stalls) = 1
  /\ reported (snd (Old.run DIR_IN DIR_OUT default_flags old_write_stalls))
     = [].
Proof.
  split; [split; reflexivity|].
  destruct (old_write_error_is_fatal DIR_IN DIR_OUT default_flags
              old_write_stalls "stall"%string eq_refl eq_refl)
    as (Hexit & _ & _ & Hrep).
  split; [exact Hexit | exact Hrep].
Defined.

(** ** Fatal lines *)


(** ** What the flags change *)

Lemma device_opens_new (fl : Flags) (t : New.Transport) :
  device_opens (snd (New.run fl t)) = [(0x03eb, 0x2013)].
Proof.
  new_paths t; by_reading; reflexivity.
Qed.

(** X12: main.go reads two flags only. Every run opens the device with
    vendor id 0x03eb and product id 0x2013, whatever the [device] flag
    says; the exit code does not depend on any flag; and two runs whose
    [device] and [debug] flags agree are the same run, whatever [config],
    [interface], [setup] and [endpoint] are. *)
Theorem new_flags_read (fl fl' : Flags) (t : New.Transport) :
  device fl = device fl' ->
  debug fl = debug fl' ->
  New.run fl t = New.run fl' t
  /\ device_opens (snd (New.run fl t)) = [(0x03eb, 0x2013)]
  /\ (forall fl'' : Flags,
        fst (New.run fl'' t) = fst (New.run fl t)
        /\ device_opens (snd (New.run fl'' t)) = [(0x03eb, 0x2013)]).
Proof.
  intros Hdev Hdbg. split; [|split].
  - destruct fl, fl'. simpl in Hdev, Hdbg. subst.
    reflexivity.
  - apply device_opens_new.
  - intros fl''. split; [|apply device_opens_new].
    rewrite !new_exit_zero_iff. reflexivity.
Qed.

Lemma new_flags_read_witness :
  (device other_flags = device default_flags
   /\ debug other_flags = debug default_flags)
  /\ New.run other_flags (sensor response_A)
     = New.run default_flags (sensor response_A).
Proof.
  split; [split; reflexivity|].
  apply (new_flags_read other_flags default_flags (sensor response_A));
    reflexivity.
Defined.

Lemma to_uint8_shift (c k : Z) : to_uint8 (c + 256 * k) = to_uint8 c.
Proof.
  unfold to_uint8. rewrite Z.mul_comm. apply Z.mod_add. lia.
Qed.

(** X13: the earlier program passes [config], [interface] and [setup] to
    [OpenEndpoint] through [uint8], so only their value modulo 256 counts:
    shifting any of them by a multiple of 256 gives the same run. *)
Theorem old_flags_truncated
  (i o a b c : Z) (fl : Flags) (t : Old.Transport) :
  Old.run i o (shifted fl a b c) t = Old.run i o fl t.
Proof.
  unfold Old.run, Old.main, shifted. cbn [config iface setup device debug].
  rewrite !to_uint8_shift. reflexivity.
Qed.

(** ** Device discovery in the earlier program *)


(** X15: an error of [ListDevices] is fatal even when matching devices
    were returned with it: the run logs the list error and exits with 1;
    no endpoint is opened and none of the returned devices is closed. *)
Theorem old_list_error_is_fatal
  (i o : Z) (fl : Flags) (t : Old.Transport) (e : error) :
  Old.list_err t = Some e ->
  Old.run i o fl t
  = (1, [EvNewContext; EvCtxDebug (debug fl);
         EvLog (MsgScanning (device fl)); EvListDevices]
        ++ printed (OldPath.found fl t) ++ [EvLog (MsgFatalList e)])
  /\ endpoint_ops (snd (Old.run i o fl t)) = []
  /\ releases (snd (Old.run i o fl t)) = [].
Proof.
  old_paths fl t; intros H; try discriminate; injection H as ->;
    repeat split; reflexivity.
Qed.

Lemma old_list_error_is_fatal_witness :
  Old.list_err old_list_error = Some "access denied"%string
  /\ map Old.handle (OldPath.found default_flags old_list_error)
     = [4; 5]%nat
  /\ fst (Old.run DIR_IN DIR_OUT default_flags old_list_error) = 1
  /\ releases (snd (Old.run DIR_IN DIR_OUT default_flags old_list_error))
     = [].
Proof.
  split; [reflexivity|]. split; [reflexivity|].
  destruct (old_list_error_is_fatal DIR_IN DIR_OUT default_flags
              old_list_error "access denied"%string eq_refl)
    as (Hrun & _ & Hrel).
  split; [rewrite Hrun; reflexivity | exact Hrel].
Defined.
